(** * BusTracker: from the GTFS-realtime vehicle feed to a GeoJSON endpoint

    A shallow embedding of [app.py]: the function
    [fetch_and_convert_to_geojson], the endpoint [get_geojson_data] and the
    snapshot file it writes.  What the program imports and does not define
    (the HTTP client, the protobuf decoder, the JSON leaf encoders) is the
    environment the functions are run against. *)

From Stdlib Require Import ZArith List String Ascii Bool Lia.
From Stdlib Require Import SpecFloat DecimalString.
Import ListNotations.

Local Open Scope string_scope.
Local Open Scope Z_scope.
Set Warnings "-register-all".

(* ------------------------------------------------------------------ *)
(** ** Python values and exceptions *)

(** The values the program builds: [str], [int], [float], [list], and [dict]
    with string keys.  A dict keeps the insertion order of its keys, which
    the serializer follows, so it is an association list. *)
Inductive pyval : Type :=
| PyStr (s : string)
| PyInt (n : Z)
| PyFloat (x : spec_float)
| PyList (items : list pyval)
| PyDict (items : list (string * pyval)).

(** [d[k]] on a dict; [None] stands for [KeyError] (and for a value that is
    no dict). *)
Fixpoint dict_get (items : list (string * pyval)) (k : string) : option pyval :=
  match items with
  | [] => None
  | (k', v) :: rest => if String.eqb k' k then Some v else dict_get rest k
  end.

Definition getitem (o : pyval) (k : string) : option pyval :=
  match o with
  | PyDict items => dict_get items k
  | _ => None
  end.

(** How a request of the [requests] library fails; each is a subclass of
    [requests.exceptions.RequestException]. *)
Inductive RequestError : Type :=
| ConnectionError
| Timeout
| TooManyRedirects
| OtherRequestError.

(** The exceptions the model follows through the program.  [TypeError] is
    what [json] raises on a value it cannot serialize. *)
Inductive exn : Type :=
| RequestException (kind : RequestError)
| HTTPError (status : Z)
| DecodeError
| IOError
| TypeError.

(** [isinstance(e, requests.exceptions.RequestException)]: [HTTPError] is a
    subclass; protobuf's [DecodeError], a plain [IOError] and [TypeError]
    are not. *)
Definition isinstance_RequestException (e : exn) : bool :=
  match e with
  | RequestException _ => true
  | HTTPError _ => true
  | DecodeError => false
  | IOError => false
  | TypeError => false
  end.

(** [isinstance(e, IOError)]: [RequestException] is itself a subclass of
    [IOError], and [HTTPError] with it. *)
Definition isinstance_IOError (e : exn) : bool :=
  match e with
  | RequestException _ => true
  | HTTPError _ => true
  | IOError => true
  | DecodeError => false
  | TypeError => false
  end.

(** A computation returns a value or raises. *)
Inductive result (A : Type) : Type :=
| Return (a : A)
| Raise (e : exn).

Arguments Return {A} a.
Arguments Raise {A} e.

Definition bind {A B : Type} (m : result A) (k : A -> result B) : result B :=
  match m with
  | Return a => k a
  | Raise e => Raise e
  end.

Notation "x <- m ;; k" := (bind m (fun x => k))
  (at level 61, m at next level, right associativity).

(* ------------------------------------------------------------------ *)
(** ** The decoded feed (gtfs_realtime_pb2)

    Only the fields the program reads.  The schema is proto2: an optional
    field has explicit presence, [HasField] tells whether it was set, and
    reading an unset field gives the default of its type. A required field
    is held as the value a read returns. *)

Definition HasField {A : Type} (field : option A) : bool :=
  match field with
  | Some _ => true
  | None => false
  end.

Definition read {A : Type} (default : A) (field : option A) : A :=
  match field with
  | Some x => x
  | None => default
  end.

Definition float_zero : spec_float := S754_zero false.

Module Position.
Record t : Type := {
  latitude : spec_float;
  longitude : spec_float;
  bearing : option spec_float
}.
Definition unset : t :=
  {| latitude := float_zero; longitude := float_zero; bearing := None |}.
End Position.

Module TripDescriptor.
Record t : Type := { route_id : option string }.
Definition unset : t := {| route_id := None |}.
End TripDescriptor.

Module VehicleDescriptor.
Record t : Type := { id : option string }.
Definition unset : t := {| id := None |}.
End VehicleDescriptor.

Module VehiclePosition.
Record t : Type := {
  trip : option TripDescriptor.t;
  position : option Position.t;
  vehicle : option VehicleDescriptor.t
}.
Definition unset : t := {| trip := None; position := None; vehicle := None |}.
End VehiclePosition.

Module FeedEntity.
Record t : Type := {
  id : string;
  vehicle : option VehiclePosition.t
}.
End FeedEntity.

Module FeedHeader.
Record t : Type := { timestamp : option Z }.
End FeedHeader.

Module FeedMessage.
Record t : Type := {
  header : FeedHeader.t;
  entity : list FeedEntity.t
}.
End FeedMessage.

(* ------------------------------------------------------------------ *)
(** ** The environment: HTTP client and protobuf decoder *)

Record Response : Type := {
  status_code : Z;
  content : string
}.

(** [requests_get url] is the outcome of
    [requests.get(url, allow_redirects=True, timeout=5)]: a response or one
    of the library's request errors.  [ParseFromString body] is the decoder's
    outcome on a body: a message, or [None] when it raises [DecodeError].
    These are the outcomes the model follows; an exception of another class
    from either call (a [UnicodeDecodeError], say) is outside it, and no
    theorem below speaks of the absence of one. *)
Record World : Type := {
  requests_get : string -> RequestError + Response;
  ParseFromString : string -> option FeedMessage.t
}.

(** [response.raise_for_status()]: [HTTPError] for a 4xx or 5xx status. *)
Definition raise_for_status (response : Response) : result unit :=
  if (400 <=? status_code response) && (status_code response <? 600)
  then Raise (HTTPError (status_code response))
  else Return tt.

(* ------------------------------------------------------------------ *)
(** ** Configuration *)

Definition FEED_URL : string :=
  "https://gtfs.halifax.ca/realtime/Vehicle/VehiclePositions.pb".
Definition DATA_FOLDER : string := "data".
Definition GEOJSON_FILENAME : string := "bus_positions.geojson".

(* ------------------------------------------------------------------ *)
(** ** fetch_and_convert_to_geojson *)

(** The body of the [try] block: GET, status check, decode. *)
Definition fetch_feed (w : World) : result FeedMessage.t :=
  response <- match requests_get w FEED_URL with
              | inl err => Raise (RequestException err)
              | inr response => Return response
              end ;;
  _ <- raise_for_status response ;;
  match ParseFromString w (content response) with
  | Some feed => Return feed
  | None => Raise DecodeError
  end.

(** [bus_id]: the vehicle id when the descriptor and its id are set, the
    entity id otherwise. *)
Definition bus_id_of (entity : FeedEntity.t) (vehicle : VehiclePosition.t) : string :=
  let descriptor := read VehicleDescriptor.unset (VehiclePosition.vehicle vehicle) in
  if HasField (VehiclePosition.vehicle vehicle) && HasField (VehicleDescriptor.id descriptor)
  then read EmptyString (VehicleDescriptor.id descriptor)
  else FeedEntity.id entity.

(** [route_id]: the trip's route id when the trip and its route id are set,
    ['N/A'] otherwise. *)
Definition route_id_of (vehicle : VehiclePosition.t) : string :=
  let trip := read TripDescriptor.unset (VehiclePosition.trip vehicle) in
  if HasField (VehiclePosition.trip vehicle) && HasField (TripDescriptor.route_id trip)
  then read EmptyString (TripDescriptor.route_id trip)
  else "N/A".

(** [target_bus_id is None or bus_id == target_bus_id or route_id == target_bus_id] *)
Definition selected (target_bus_id : option string) (bus_id route_id : string) : bool :=
  match target_bus_id with
  | None => true
  | Some target => String.eqb bus_id target || String.eqb route_id target
  end.

(** The [feature] dict literal. *)
Definition feature (bus_id route_id : string) (position : Position.t)
    (header : FeedHeader.t) : pyval :=
  PyDict [
    ("type", PyStr "Feature");
    ("properties", PyDict [
       ("id", PyStr bus_id);
       ("route_id", PyStr route_id);
       ("bearing", PyFloat (read float_zero (Position.bearing position)));
       ("timestamp", PyInt (read 0 (FeedHeader.timestamp header)))
     ]);
    ("geometry", PyDict [
       ("type", PyStr "Point");
       ("coordinates", PyList [PyFloat (Position.longitude position);
                               PyFloat (Position.latitude position)])
     ])
  ].

(** One turn of [for entity in feed.entity], on the list [features] built so
    far. *)
Definition loop_body (feed : FeedMessage.t) (target_bus_id : option string)
    (features : list pyval) (entity : FeedEntity.t) : list pyval :=
  if HasField (FeedEntity.vehicle entity) then
    let vehicle := read VehiclePosition.unset (FeedEntity.vehicle entity) in
    if HasField (VehiclePosition.position vehicle) then
      let bus_id := bus_id_of entity vehicle in
      let route_id := route_id_of vehicle in
      if selected target_bus_id bus_id route_id then
        features ++ [feature bus_id route_id
                       (read Position.unset (VehiclePosition.position vehicle))
                       (FeedMessage.header feed)]
      else features
    else features
  else features.

Definition FeatureCollection (features : list pyval) : pyval :=
  PyDict [("type", PyStr "FeatureCollection"); ("features", PyList features)].

(** The part of the function after the [try] statement. *)
Definition convert_to_geojson (feed : FeedMessage.t) (target_bus_id : option string) : pyval :=
  FeatureCollection (fold_left (loop_body feed target_bus_id) (FeedMessage.entity feed) []).

Definition fetch_and_convert_to_geojson (w : World) (target_bus_id : option string)
    : result pyval :=
  match fetch_feed w with
  | Raise e =>
      if isinstance_RequestException e
      then Return (FeatureCollection [])
      else Raise e
  | Return feed => Return (convert_to_geojson feed target_bus_id)
  end.

(* ------------------------------------------------------------------ *)
(** ** json.dump(obj, f, indent=4) *)

Definition LF : string := String "010" EmptyString.

Fixpoint repeat_str (s : string) (n : nat) : string :=
  match n with
  | O => EmptyString
  | S n' => s ++ repeat_str s n'
  end.

Fixpoint join (sep : string) (chunks : list string) : string :=
  match chunks with
  | [] => EmptyString
  | [c] => c
  | c :: rest => c ++ sep ++ join sep rest
  end.

(** [int.__repr__] *)
Definition int_repr (n : Z) : string := NilZero.string_of_int (Z.to_int n).

Section JsonEncoder.

(** The two leaf encoders of the [json] module that are CPython builtins:
    [encode_basestring_ascii] (a quoted, escaped string) and
    [float.__repr__]. *)
Variable encode_basestring_ascii : string -> string.
Variable float_repr : spec_float -> string.

(** [floatstr] of [json.encoder], with [allow_nan=True]. *)
Definition floatstr (x : spec_float) : string :=
  match x with
  | S754_nan => "NaN"
  | S754_infinity false => "Infinity"
  | S754_infinity true => "-Infinity"
  | _ => float_repr x
  end.

(** [newline_indent = '\n' + _indent * level], with [_indent = ' ' * 4]. *)
Definition newline_indent (level : nat) : string :=
  LF ++ repeat_str "    " level.

(** The chunks [_iterencode(o, level)] yields, concatenated.  With an indent
    the item separator is [','] and the key separator [': ']; dict items come
    in insertion order ([sort_keys=False]). *)
Fixpoint iterencode (o : pyval) (level : nat) : string :=
  match o with
  | PyStr s => encode_basestring_ascii s
  | PyInt n => int_repr n
  | PyFloat x => floatstr x
  | PyList items =>
      match items with
      | [] => "[]"
      | _ =>
          "[" ++ newline_indent (S level)
          ++ join ("," ++ newline_indent (S level))
                  (map (fun v => iterencode v (S level)) items)
          ++ newline_indent level ++ "]"
      end
  | PyDict items =>
      match items with
      | [] => "{}"
      | _ =>
          "{" ++ newline_indent (S level)
          ++ join ("," ++ newline_indent (S level))
                  (map (fun kv => encode_basestring_ascii (fst kv) ++ ": "
                                  ++ iterencode (snd kv) (S level)) items)
          ++ newline_indent level ++ "}"
      end
  end.

Definition json_dumps_indent4 (obj : pyval) : string := iterencode obj 0.

(* ------------------------------------------------------------------ *)
(** ** The snapshot file and the endpoint *)

(** The files of the data folder: a path has a content or does not exist. *)
Definition FileSystem : Type := string -> option string.

Definition write_file (fs : FileSystem) (path text : string) : FileSystem :=
  fun p => if String.eqb p path then Some text else fs p.

Definition starts_with_slash (s : string) : bool :=
  match s with
  | String "/" _ => true
  | _ => false
  end.

Fixpoint ends_with_slash (s : string) : bool :=
  match s with
  | EmptyString => false
  | String "/" EmptyString => true
  | String _ rest => ends_with_slash rest
  end.

(** [os.path.join(a, b)] (posixpath): an absolute [b] replaces [a]; no
    separator is added to an empty [a] or after a trailing slash. *)
Definition os_path_join (a b : string) : string :=
  if starts_with_slash b then b
  else if match a with EmptyString => true | _ => ends_with_slash a end then a ++ b
  else a ++ "/" ++ b.

(** How the snapshot step of one request goes.  With a collection that
    [json] can serialize, the statement
    [with open(path, 'w') as f: json.dump(obj, f, indent=4)] replaces the
    file by the whole text ([WriteOk]); or [open] raises [IOError] and
    nothing is written ([OpenFails]); or the file is truncated and a write
    raises [IOError] after [written] bytes ([WriteFails]).
    [NotSerializable]: the collection holds a value [json] cannot serialize
    (for a string field that is not UTF-8 the decoder hands back a [bytes]
    object); then [json.dump] raises [TypeError] after [written] bytes
    ([None]: [open] had raised [IOError] before), and [jsonify] raises
    [TypeError] as well. *)
Inductive io_outcome : Type :=
| WriteOk
| OpenFails
| WriteFails (written : nat)
| NotSerializable (written : option nat).

Definition open_w_json_dump (io : io_outcome) (path : string) (obj : pyval)
    (fs : FileSystem) : result unit * FileSystem :=
  match io with
  | WriteOk => (Return tt, write_file fs path (json_dumps_indent4 obj))
  | OpenFails => (Raise IOError, fs)
  | WriteFails written =>
      (Raise IOError,
       write_file fs path (substring 0 written (json_dumps_indent4 obj)))
  | NotSerializable None => (Raise IOError, fs)
  | NotSerializable (Some written) =>
      (Raise TypeError,
       write_file fs path (substring 0 written (json_dumps_indent4 obj)))
  end.

(** [jsonify(obj)]: the body of the response. *)
Definition jsonify (io : io_outcome) (obj : pyval) : result pyval :=
  match io with
  | NotSerializable _ => Raise TypeError
  | _ => Return obj
  end.

(** [request.args]: the query parameters in order (a MultiDict); [get]
    gives the first value of the key, or the default. *)
Fixpoint args_get (args : list (string * string)) (key : string)
    (default : option string) : option string :=
  match args with
  | [] => default
  | (k, v) :: rest => if String.eqb k key then Some v else args_get rest key default
  end.

(** What the view function returns: body, status, headers. *)
Record HttpResponse : Type := {
  body : pyval;
  status : Z;
  headers : list (string * string)
}.

Definition get_geojson_data (w : World) (io : io_outcome)
    (args : list (string * string)) (fs : FileSystem)
    : result (HttpResponse * FileSystem) :=
  let target_bus := args_get args "bus" None in
  geojson_data <- fetch_and_convert_to_geojson w target_bus ;;
  let file_path := os_path_join DATA_FOLDER GEOJSON_FILENAME in
  let (written, fs') := open_w_json_dump io file_path geojson_data fs in
  _ <- match written with
       | Return _ => Return tt
       | Raise e =>
           if isinstance_IOError e
           then Return tt
           else Raise e
       end ;;
  json_body <- jsonify io geojson_data ;;
  Return ({| body := json_body; status := 200;
             headers := [("Content-Type", "application/json")] |}, fs').

End JsonEncoder.

(* ------------------------------------------------------------------ *)
(** ** Reading a result back *)

(** [o[k1][k2]...] *)
Fixpoint getpath (o : pyval) (keys : list string) : option pyval :=
  match keys with
  | [] => Some o
  | k :: rest =>
      match getitem o k with
      | Some v => getpath v rest
      | None => None
      end
  end.

(** The list under ["features"] of a collection. *)
Definition features_of (collection : pyval) : list pyval :=
  match getitem collection "features" with
  | Some (PyList features) => features
  | _ => []
  end.

(** [f["properties"][k] == c], for a string property. *)
Definition property_is (f : pyval) (k c : string) : bool :=
  match getpath f ["properties"; k] with
  | Some (PyStr s) => String.eqb s c
  | _ => false
  end.

(** The filter predicate on an emitted feature: its id or its route id is
    the criterion. *)
Definition matches (c : string) (f : pyval) : bool :=
  property_is f "id" c || property_is f "route_id" c.

(** An entity that carries a vehicle record with a position. *)
Definition has_position (entity : FeedEntity.t) : bool :=
  match FeedEntity.vehicle entity with
  | Some vehicle => HasField (VehiclePosition.position vehicle)
  | None => false
  end.

(** The features of the position-bearing entities, in message order, before
    any filtering. *)
Definition eligible_features (feed : FeedMessage.t) : list pyval :=
  flat_map
    (fun entity =>
       match FeedEntity.vehicle entity with
       | Some vehicle =>
           match VehiclePosition.position vehicle with
           | Some position =>
               [feature (bus_id_of entity vehicle) (route_id_of vehicle)
                        position (FeedMessage.header feed)]
           | None => []
           end
       | None => []
       end)
    (FeedMessage.entity feed).

(** What one entity contributes: nothing, or its one feature. *)
Definition contribution (feed : FeedMessage.t) (target_bus_id : option string)
    (entity : FeedEntity.t) : list pyval :=
  loop_body feed target_bus_id [] entity.

(** The upstream fetch fails in transport: the request raises (timeout,
    connection error, too many redirects, ...) or the response carries an
    error status, which for [raise_for_status] is 400 to 599. *)
Definition transport_failure (w : World) : bool :=
  match requests_get w FEED_URL with
  | inl _ => true
  | inr response => (400 <=? status_code response) && (status_code response <? 600)
  end.

(** [f] is a feature of the collection the function returns. *)
Definition emits (w : World) (target_bus_id : option string) (f : pyval) : Prop :=
  exists collection,
    fetch_and_convert_to_geojson w target_bus_id = Return collection /\
    In f (features_of collection).

(* ------------------------------------------------------------------ *)
(** ** The page: what [index] asks the endpoint for *)

(** [if target_bus:] on [request.args.get('bus', None)]: [None] and the
    empty string are false. *)
Definition truthy (target_bus : option string) : bool :=
  match target_bus with
  | Some EmptyString => false
  | Some _ => true
  | None => false
  end.

(** The locals [data_url] and [map_title] of [index], as they stand when the
    map is built: the URL the page polls and the title of its marker.  In
    the first branch [target_bus] is a non-empty string. *)
Definition index_data_url_and_title (args : list (string * string)) : string * string :=
  let target_bus := args_get args "bus" None in
  let data_url := "/bus_data.geojson" in
  if truthy target_bus then
    ("/bus_data.geojson?bus=" ++ read EmptyString target_bus,
     "Live Tracking: Bus/Route " ++ read EmptyString target_bus)
  else
    (data_url, "Live Tracking: All Active Buses").

(** What the client of the endpoint sees: the response, or the exception. *)
Definition response_of (outcome : result (HttpResponse * FileSystem)) : result HttpResponse :=
  match outcome with
  | Return (response, _) => Return response
  | Raise e => Raise e
  end.

(* ------------------------------------------------------------------ *)
(** ** The identifiers as the specification words them *)

(** Effective identifier: the vehicle identifier if set and non-empty, else
    the entity identifier. *)
Definition spec_effective_id (entity : FeedEntity.t) (vehicle : VehiclePosition.t)
    : string :=
  match VehiclePosition.vehicle vehicle with
  | Some descriptor =>
      match VehicleDescriptor.id descriptor with
      | Some i => if String.eqb i EmptyString then FeedEntity.id entity else i
      | None => FeedEntity.id entity
      end
  | None => FeedEntity.id entity
  end.

(** Route identifier: the trip's route identifier if set and non-empty, else
    the sentinel "unavailable". *)
Definition spec_route_id (vehicle : VehiclePosition.t) : string :=
  match VehiclePosition.trip vehicle with
  | Some trip =>
      match TripDescriptor.route_id trip with
      | Some r => if String.eqb r EmptyString then "unavailable" else r
      | None => "unavailable"
      end
  | None => "unavailable"
  end.

(* ------------------------------------------------------------------ *)
(** ** Sample feeds and worlds *)

Module Sample.

(** 44.65, -63.57 and 90.0 as the feed's 32-bit floats. *)
Definition lat_44_65 : spec_float := S754_finite false 11704730 (-18).
Definition lon_63_57W : spec_float := S754_finite true 16664494 (-18).
Definition deg_90 : spec_float := S754_finite false 11796480 (-17).

Definition halifax (bearing : option spec_float) : Position.t :=
  {| Position.latitude := lat_44_65;
     Position.longitude := lon_63_57W;
     Position.bearing := bearing |}.

(** Entity E1: vehicle B42 on route R1, heading east. *)
Definition vehicle_B42 : VehiclePosition.t :=
  {| VehiclePosition.trip := Some {| TripDescriptor.route_id := Some "R1" |};
     VehiclePosition.position := Some (halifax (Some deg_90));
     VehiclePosition.vehicle := Some {| VehicleDescriptor.id := Some "B42" |} |}.
Definition entity_E1 : FeedEntity.t :=
  {| FeedEntity.id := "E1"; FeedEntity.vehicle := Some vehicle_B42 |}.

(** Entity E2: a position and nothing else. *)
Definition vehicle_bare : VehiclePosition.t :=
  {| VehiclePosition.trip := None;
     VehiclePosition.position := Some (halifax None);
     VehiclePosition.vehicle := None |}.
Definition entity_E2 : FeedEntity.t :=
  {| FeedEntity.id := "E2"; FeedEntity.vehicle := Some vehicle_bare |}.

(** Entity E3: a vehicle without a position; entity E4: no vehicle record. *)
Definition entity_E3 : FeedEntity.t :=
  {| FeedEntity.id := "E3";
     FeedEntity.vehicle :=
       Some {| VehiclePosition.trip := Some {| TripDescriptor.route_id := Some "R1" |};
               VehiclePosition.position := None;
               VehiclePosition.vehicle := Some {| VehicleDescriptor.id := Some "B7" |} |} |}.
Definition entity_E4 : FeedEntity.t :=
  {| FeedEntity.id := "E4"; FeedEntity.vehicle := None |}.

(** Entity E5: vehicle id and route id both set, to the empty string. *)
Definition vehicle_blank : VehiclePosition.t :=
  {| VehiclePosition.trip := Some {| TripDescriptor.route_id := Some EmptyString |};
     VehiclePosition.position := Some (halifax None);
     VehiclePosition.vehicle := Some {| VehicleDescriptor.id := Some EmptyString |} |}.
Definition entity_E5 : FeedEntity.t :=
  {| FeedEntity.id := "E5"; FeedEntity.vehicle := Some vehicle_blank |}.

Definition feed_of (timestamp : option Z) (entities : list FeedEntity.t) : FeedMessage.t :=
  {| FeedMessage.header := {| FeedHeader.timestamp := timestamp |};
     FeedMessage.entity := entities |}.

Definition feed_one : FeedMessage.t := feed_of (Some 1700000000) [entity_E1].
Definition feed_mixed : FeedMessage.t :=
  feed_of None [entity_E1; entity_E2; entity_E3; entity_E4; entity_E5].
Definition feed_bare : FeedMessage.t := feed_of (Some 1700000000) [entity_E2].
Definition feed_blank : FeedMessage.t := feed_of (Some 1700000000) [entity_E5].

(** A world whose server answers [status] with a body the decoder turns
    into [decoded] ([None]: the decoder raises). *)
Definition world (status : Z) (decoded : option FeedMessage.t) : World :=
  {| requests_get := fun _ => inr {| status_code := status; content := "payload" |};
     ParseFromString := fun _ => decoded |}.

(** A world whose request fails. *)
Definition world_down (err : RequestError) : World :=
  {| requests_get := fun _ => inl err;
     ParseFromString := fun _ => None |}.

(** The server answers 200 with the single byte 0xFF, which is no message:
    the tag varint is cut short. *)
Definition world_garbage : World :=
  {| requests_get := fun _ =>
       inr {| status_code := 200; content := String "255" EmptyString |};
     ParseFromString := fun body =>
       if String.eqb body (String "255" EmptyString) then None
       else Some (feed_of None []) |}.

Definition feature_B42 : pyval :=
  PyDict [
    ("type", PyStr "Feature");
    ("properties", PyDict [
       ("id", PyStr "B42");
       ("route_id", PyStr "R1");
       ("bearing", PyFloat deg_90);
       ("timestamp", PyInt 1700000000)
     ]);
    ("geometry", PyDict [
       ("type", PyStr "Point");
       ("coordinates", PyList [PyFloat lon_63_57W; PyFloat lat_44_65])
     ])
  ].

(** Leaf encoders for the samples: the quoting of a string that needs no
    escape, and [repr] of the sample floats (as Python prints the 32-bit
    values once widened to doubles). *)
Definition quote_plain (s : string) : string :=
  String "034" (s ++ String "034" EmptyString).

Definition repr_sample (x : spec_float) : string :=
  match x with
  | S754_zero false => "0.0"
  | S754_zero true => "-0.0"
  | S754_finite false 11796480%positive (-17) => "90.0"
  | S754_finite false 11704730%positive (-18) => "44.650001525878906"
  | S754_finite true 16664494%positive (-18) => "-63.56999969482422"
  | _ => "?"
  end.

(** The snapshot of the empty collection and of the one-feature collection,
    line by line. *)
Definition snapshot_empty : string :=
  join LF [
    "{";
    "    " ++ quote_plain "type" ++ ": " ++ quote_plain "FeatureCollection" ++ ",";
    "    " ++ quote_plain "features" ++ ": []";
    "}"
  ].

Definition snapshot_one : string :=
  join LF [
    "{";
    "    " ++ quote_plain "type" ++ ": " ++ quote_plain "FeatureCollection" ++ ",";
    "    " ++ quote_plain "features" ++ ": [";
    "        {";
    "            " ++ quote_plain "type" ++ ": " ++ quote_plain "Feature" ++ ",";
    "            " ++ quote_plain "properties" ++ ": {";
    "                " ++ quote_plain "id" ++ ": " ++ quote_plain "B42" ++ ",";
    "                " ++ quote_plain "route_id" ++ ": " ++ quote_plain "R1" ++ ",";
    "                " ++ quote_plain "bearing" ++ ": 90.0,";
    "                " ++ quote_plain "timestamp" ++ ": 1700000000";
    "            },";
    "            " ++ quote_plain "geometry" ++ ": {";
    "                " ++ quote_plain "type" ++ ": " ++ quote_plain "Point" ++ ",";
    "                " ++ quote_plain "coordinates" ++ ": [";
    "                    -63.56999969482422,";
    "                    44.650001525878906";
    "                ]";
    "            }";
    "        }";
    "    ]";
    "}"
  ].

(** A data folder with no file in it. *)
Definition no_files : FileSystem := fun _ => None.

End Sample.

(* ------------------------------------------------------------------ *)
(** ** The examples of the specification, run *)

Example one_entity_no_filter :
  fetch_and_convert_to_geojson (Sample.world 200 (Some Sample.feed_one)) None
  = Return (FeatureCollection [Sample.feature_B42]).
Proof. reflexivity. Qed.

Example one_entity_filter_route :
  fetch_and_convert_to_geojson (Sample.world 200 (Some Sample.feed_one)) (Some "R1")
  = Return (FeatureCollection [Sample.feature_B42]).
Proof. reflexivity. Qed.

Example one_entity_filter_other :
  fetch_and_convert_to_geojson (Sample.world 200 (Some Sample.feed_one)) (Some "B99")
  = Return (FeatureCollection []).
Proof. reflexivity. Qed.

Example filter_is_case_sensitive :
  fetch_and_convert_to_geojson (Sample.world 200 (Some Sample.feed_one)) (Some "r1")
  = Return (FeatureCollection []).
Proof. reflexivity. Qed.

Example mixed_feed_emits_three :
  option_map (@List.length pyval)
    (match fetch_and_convert_to_geojson (Sample.world 200 (Some Sample.feed_mixed)) None with
     | Return c => Some (features_of c)
     | Raise _ => None
     end) = Some 3%nat.
Proof. reflexivity. Qed.

(* ------------------------------------------------------------------ *)
(** ** The loop as a map over the entities *)

Lemma loop_body_appends feed target features entity :
  loop_body feed target features entity
  = (features ++ contribution feed target entity)%list.
Proof.
  unfold contribution, loop_body.
  destruct (HasField (FeedEntity.vehicle entity)); [| now rewrite app_nil_r].
  destruct (HasField (VehiclePosition.position _)); [| now rewrite app_nil_r].
  destruct (selected _ _ _); [reflexivity | now rewrite app_nil_r].
Qed.

Lemma fold_loop_body feed target entities features :
  fold_left (loop_body feed target) entities features
  = (features ++ flat_map (contribution feed target) entities)%list.
Proof.
  revert features.
  induction entities as [| entity rest IH]; intros features; simpl.
  - now rewrite app_nil_r.
  - rewrite IH, loop_body_appends, app_assoc. reflexivity.
Qed.

Lemma contribution_cases feed target entity :
  contribution feed target entity
  = match FeedEntity.vehicle entity with
    | Some vehicle =>
        match VehiclePosition.position vehicle with
        | Some position =>
            if selected target (bus_id_of entity vehicle) (route_id_of vehicle)
            then [feature (bus_id_of entity vehicle) (route_id_of vehicle)
                          position (FeedMessage.header feed)]
            else []
        | None => []
        end
    | None => []
    end.
Proof.
  unfold contribution, loop_body.
  destruct (FeedEntity.vehicle entity) as [vehicle|]; simpl; [| reflexivity].
  destruct (VehiclePosition.position vehicle) as [position|]; reflexivity.
Qed.

Lemma features_of_convert feed target :
  features_of (convert_to_geojson feed target)
  = flat_map (contribution feed target) (FeedMessage.entity feed).
Proof.
  unfold convert_to_geojson, FeatureCollection. simpl.
  now rewrite fold_loop_body.
Qed.

Lemma convert_is_collection feed target :
  convert_to_geojson feed target
  = FeatureCollection (flat_map (contribution feed target) (FeedMessage.entity feed)).
Proof. unfold convert_to_geojson. now rewrite fold_loop_body. Qed.

(** With a decoded message the function returns its conversion. *)
Lemma fetch_and_convert_decoded w target feed :
  fetch_feed w = Return feed ->
  fetch_and_convert_to_geojson w target = Return (convert_to_geojson feed target).
Proof. intros H. unfold fetch_and_convert_to_geojson. now rewrite H. Qed.

(** The bus id and the route id, by cases on the presence of the fields. *)
Lemma bus_id_of_cases entity vehicle :
  bus_id_of entity vehicle
  = match VehiclePosition.vehicle vehicle with
    | Some descriptor =>
        match VehicleDescriptor.id descriptor with
        | Some i => i
        | None => FeedEntity.id entity
        end
    | None => FeedEntity.id entity
    end.
Proof.
  unfold bus_id_of.
  destruct (VehiclePosition.vehicle vehicle) as [descriptor|]; simpl; [| reflexivity].
  destruct (VehicleDescriptor.id descriptor); reflexivity.
Qed.

Lemma route_id_of_cases vehicle :
  route_id_of vehicle
  = match VehiclePosition.trip vehicle with
    | Some trip =>
        match TripDescriptor.route_id trip with
        | Some r => r
        | None => "N/A"
        end
    | None => "N/A"
    end.
Proof.
  unfold route_id_of.
  destruct (VehiclePosition.trip vehicle) as [trip|]; simpl; [| reflexivity].
  destruct (TripDescriptor.route_id trip); reflexivity.
Qed.

(** Every emitted feature is the feature of a position-bearing entity of the
    decoded message that passes the filter. *)
Lemma emits_inv w target feed f :
  fetch_feed w = Return feed ->
  emits w target f ->
  exists entity vehicle position,
    In entity (FeedMessage.entity feed) /\
    FeedEntity.vehicle entity = Some vehicle /\
    VehiclePosition.position vehicle = Some position /\
    selected target (bus_id_of entity vehicle) (route_id_of vehicle) = true /\
    f = feature (bus_id_of entity vehicle) (route_id_of vehicle)
                position (FeedMessage.header feed).
Proof.
  intros Hfeed [collection [Hreturn Hin]].
  rewrite (fetch_and_convert_decoded _ _ _ Hfeed) in Hreturn.
  injection Hreturn as <-.
  rewrite features_of_convert in Hin.
  apply in_flat_map in Hin as [entity [Hentity Hf]].
  rewrite contribution_cases in Hf.
  destruct (FeedEntity.vehicle entity) as [vehicle|] eqn:Hv; [| contradiction].
  destruct (VehiclePosition.position vehicle) as [position|] eqn:Hp; [| contradiction].
  destruct (selected _ _ _) eqn:Hsel; [| contradiction].
  destruct Hf as [<- | []].
  exists entity, vehicle, position. repeat split; assumption.
Qed.

Lemma emits_intro w target feed entity vehicle position :
  fetch_feed w = Return feed ->
  In entity (FeedMessage.entity feed) ->
  FeedEntity.vehicle entity = Some vehicle ->
  VehiclePosition.position vehicle = Some position ->
  selected target (bus_id_of entity vehicle) (route_id_of vehicle) = true ->
  emits w target (feature (bus_id_of entity vehicle) (route_id_of vehicle)
                          position (FeedMessage.header feed)).
Proof.
  intros Hfeed Hentity Hv Hp Hsel.
  exists (convert_to_geojson feed target). split.
  - now apply fetch_and_convert_decoded.
  - rewrite features_of_convert. apply in_flat_map.
    exists entity. split; [assumption |].
    rewrite contribution_cases, Hv, Hp, Hsel. now left.
Qed.

(* ------------------------------------------------------------------ *)
(** ** Failures of the fetch *)

(** When the function raises, in a world of this model, it is the decoder's
    [DecodeError] that it lets through. *)
Lemma fetch_and_convert_raises w target e :
  fetch_and_convert_to_geojson w target = Raise e ->
  e = DecodeError /\
  exists response,
    requests_get w FEED_URL = inr response /\
    raise_for_status response = Return tt /\
    ParseFromString w (content response) = None.
Proof.
  unfold fetch_and_convert_to_geojson, fetch_feed.
  destruct (requests_get w FEED_URL) as [err | response]; simpl; [discriminate |].
  destruct (raise_for_status response) as [[] | e'] eqn:Hstatus; simpl.
  - destruct (ParseFromString w (content response)) eqn:Hparse; simpl; [discriminate |].
    intros [= <-]. split; [reflexivity |].
    exists response. repeat split; assumption.
  - unfold raise_for_status in Hstatus.
    destruct (_ && _); [| discriminate].
    injection Hstatus as <-. discriminate.
Qed.

Lemma undecodable_body_raises w target response :
  requests_get w FEED_URL = inr response ->
  raise_for_status response = Return tt ->
  ParseFromString w (content response) = None ->
  fetch_and_convert_to_geojson w target = Raise DecodeError.
Proof.
  intros Hget Hstatus Hparse.
  unfold fetch_and_convert_to_geojson, fetch_feed.
  rewrite Hget. simpl. rewrite Hstatus. simpl. rewrite Hparse. reflexivity.
Qed.

(** C1, at a failing input: the server answers 200 with a body that is no
    feed message; the decoder raises [DecodeError] inside the [try] block,
    the [except] clause names [RequestException] only, and the error reaches
    the caller in place of the empty FeatureCollection, whatever the filter
    criterion. *)
Theorem decode_error_reaches_the_caller :
  forall target_bus_id : option string,
    fetch_and_convert_to_geojson Sample.world_garbage target_bus_id = Raise DecodeError.
Proof. intros target_bus_id. reflexivity. Qed.

(** C2: on a transport failure of the fetch (the request raises, or the
    status is an error status) the function returns the empty
    FeatureCollection, for every filter criterion; nothing is raised. *)
Theorem transport_failure_gives_empty_collection :
  forall (w : World) (target_bus_id : option string),
    transport_failure w = true ->
    fetch_and_convert_to_geojson w target_bus_id
    = Return (PyDict [("type", PyStr "FeatureCollection"); ("features", PyList [])]).
Proof.
  intros w target_bus_id Hfail.
  unfold transport_failure in Hfail.
  unfold fetch_and_convert_to_geojson, fetch_feed.
  destruct (requests_get w FEED_URL) as [err | response]; simpl.
  - reflexivity.
  - unfold raise_for_status. rewrite Hfail. reflexivity.
Qed.

Lemma transport_failure_witness :
  fetch_and_convert_to_geojson (Sample.world_down Timeout) (Some "R1")
  = Return (PyDict [("type", PyStr "FeatureCollection"); ("features", PyList [])])
  /\ fetch_and_convert_to_geojson (Sample.world_down ConnectionError) None
  = Return (PyDict [("type", PyStr "FeatureCollection"); ("features", PyList [])])
  /\ fetch_and_convert_to_geojson (Sample.world 503 (Some Sample.feed_one)) None
  = Return (PyDict [("type", PyStr "FeatureCollection"); ("features", PyList [])]).
Proof.
  split; [| split].
  - apply (transport_failure_gives_empty_collection (Sample.world_down Timeout)).
    reflexivity.
  - apply (transport_failure_gives_empty_collection (Sample.world_down ConnectionError)).
    reflexivity.
  - apply (transport_failure_gives_empty_collection
             (Sample.world 503 (Some Sample.feed_one))).
    reflexivity.
Defined.

(* ------------------------------------------------------------------ *)
(** ** The identifiers of an emitted feature *)

Lemma feature_id bus_id route_id position header :
  getpath (feature bus_id route_id position header) ["properties"; "id"]
  = Some (PyStr bus_id).
Proof. reflexivity. Qed.

Lemma feature_route_id bus_id route_id position header :
  getpath (feature bus_id route_id position header) ["properties"; "route_id"]
  = Some (PyStr route_id).
Proof. reflexivity. Qed.

(** C3, as the code has it: the id property of an emitted feature is the
    vehicle identifier of its entity when the vehicle descriptor and its
    identifier are set (also when set to the empty string), and the entity
    identifier otherwise; it is non-empty when the entity identifier is
    non-empty and the vehicle identifier, where set, is non-empty. *)
Theorem effective_id_by_presence :
  forall (w : World) (target_bus_id : option string) (feed : FeedMessage.t) (f : pyval),
    fetch_feed w = Return feed ->
    emits w target_bus_id f ->
    exists entity vehicle position,
      In entity (FeedMessage.entity feed) /\
      FeedEntity.vehicle entity = Some vehicle /\
      VehiclePosition.position vehicle = Some position /\
      getpath f ["properties"; "id"]
      = Some (PyStr match VehiclePosition.vehicle vehicle with
                    | Some descriptor =>
                        match VehicleDescriptor.id descriptor with
                        | Some i => i
                        | None => FeedEntity.id entity
                        end
                    | None => FeedEntity.id entity
                    end) /\
      (FeedEntity.id entity <> EmptyString ->
       (forall descriptor i,
           VehiclePosition.vehicle vehicle = Some descriptor ->
           VehicleDescriptor.id descriptor = Some i -> i <> EmptyString) ->
       getpath f ["properties"; "id"] <> Some (PyStr EmptyString)).
Proof.
  intros w target_bus_id feed f Hfeed Hemit.
  destruct (emits_inv _ _ _ _ Hfeed Hemit)
    as (entity & vehicle & position & Hin & Hv & Hp & _ & ->).
  exists entity, vehicle, position.
  rewrite feature_id, bus_id_of_cases.
  repeat split; try assumption.
  intros Hentity Hset.
  destruct (VehiclePosition.vehicle vehicle) as [descriptor|].
  - destruct (VehicleDescriptor.id descriptor) as [i|] eqn:Hi.
    + intros [= ->]. now apply (Hset descriptor EmptyString).
    + intros [= Heq]. now apply Hentity.
  - intros [= Heq]. now apply Hentity.
Qed.

Lemma effective_id_by_presence_witness :
  exists entity vehicle position,
    In entity (FeedMessage.entity Sample.feed_one) /\
    FeedEntity.vehicle entity = Some vehicle /\
    VehiclePosition.position vehicle = Some position /\
    getpath Sample.feature_B42 ["properties"; "id"]
    = Some (PyStr match VehiclePosition.vehicle vehicle with
                  | Some descriptor =>
                      match VehicleDescriptor.id descriptor with
                      | Some i => i
                      | None => FeedEntity.id entity
                      end
                  | None => FeedEntity.id entity
                  end) /\
    (FeedEntity.id entity <> EmptyString ->
     (forall descriptor i,
         VehiclePosition.vehicle vehicle = Some descriptor ->
         VehicleDescriptor.id descriptor = Some i -> i <> EmptyString) ->
     getpath Sample.feature_B42 ["properties"; "id"] <> Some (PyStr EmptyString)).
Proof.
  apply (effective_id_by_presence
           (Sample.world 200 (Some Sample.feed_one)) None Sample.feed_one).
  - reflexivity.
  - exists (FeatureCollection [Sample.feature_B42]). split.
    + reflexivity.
    + simpl. left. reflexivity.
Defined.

(** C3 as stated fails where the vehicle identifier is set to the empty
    string: entity E5 is emitted with the empty id, not with its entity
    identifier, although that one is non-empty. *)
Lemma effective_id_counterexample :
  ~ (forall f : pyval,
        emits (Sample.world 200 (Some Sample.feed_blank)) None f ->
        getpath f ["properties"; "id"]
        = Some (PyStr (spec_effective_id Sample.entity_E5 Sample.vehicle_blank))
        /\ getpath f ["properties"; "id"] <> Some (PyStr EmptyString)).
Proof.
  intros Hclaim.
  destruct (Hclaim (feature EmptyString EmptyString (Sample.halifax None)
                            (FeedMessage.header Sample.feed_blank))) as [Hid _].
  - exists (FeatureCollection
              [feature EmptyString EmptyString (Sample.halifax None)
                       (FeedMessage.header Sample.feed_blank)]).
    split; [reflexivity | simpl; left; reflexivity].
  - discriminate Hid.
Qed.

(** C4, as the code has it: the route_id property of an emitted feature is
    the route identifier of its entity's trip when the trip and its route
    identifier are set (also when set to the empty string), and the string
    N/A otherwise. *)
Theorem route_id_by_presence :
  forall (w : World) (target_bus_id : option string) (feed : FeedMessage.t) (f : pyval),
    fetch_feed w = Return feed ->
    emits w target_bus_id f ->
    exists entity vehicle position,
      In entity (FeedMessage.entity feed) /\
      FeedEntity.vehicle entity = Some vehicle /\
      VehiclePosition.position vehicle = Some position /\
      getpath f ["properties"; "route_id"]
      = Some (PyStr match VehiclePosition.trip vehicle with
                    | Some trip =>
                        match TripDescriptor.route_id trip with
                        | Some r => r
                        | None => "N/A"
                        end
                    | None => "N/A"
                    end).
Proof.
  intros w target_bus_id feed f Hfeed Hemit.
  destruct (emits_inv _ _ _ _ Hfeed Hemit)
    as (entity & vehicle & position & Hin & Hv & Hp & _ & ->).
  exists entity, vehicle, position.
  rewrite feature_route_id, route_id_of_cases.
  repeat split; assumption.
Qed.

Lemma route_id_by_presence_witness :
  exists entity vehicle position,
    In entity (FeedMessage.entity Sample.feed_one) /\
    FeedEntity.vehicle entity = Some vehicle /\
    VehiclePosition.position vehicle = Some position /\
    getpath Sample.feature_B42 ["properties"; "route_id"]
    = Some (PyStr match VehiclePosition.trip vehicle with
                  | Some trip =>
                      match TripDescriptor.route_id trip with
                      | Some r => r
                      | None => "N/A"
                      end
                  | None => "N/A"
                  end).
Proof.
  apply (route_id_by_presence
           (Sample.world 200 (Some Sample.feed_one)) (Some "B42") Sample.feed_one).
  - reflexivity.
  - exists (FeatureCollection [Sample.feature_B42]). split.
    + reflexivity.
    + simpl. left. reflexivity.
Defined.

(** C4 as stated fails twice: an entity without a trip (E2) is emitted with
    the route identifier N/A, not with the string the claim names; and a
    route identifier set to the empty string (E5) is emitted as it is. *)
Lemma route_id_counterexample :
  ~ (forall f : pyval,
        emits (Sample.world 200 (Some Sample.feed_bare)) None f ->
        getpath f ["properties"; "route_id"]
        = Some (PyStr (spec_route_id Sample.vehicle_bare)))
  /\
  ~ (forall f : pyval,
        emits (Sample.world 200 (Some Sample.feed_blank)) None f ->
        getpath f ["properties"; "route_id"]
        = Some (PyStr (spec_route_id Sample.vehicle_blank))).
Proof.
  split; intros Hclaim.
  - assert (Hroute := Hclaim (feature "E2" "N/A" (Sample.halifax None)
                                      (FeedMessage.header Sample.feed_bare))).
    discriminate Hroute.
    exists (FeatureCollection
              [feature "E2" "N/A" (Sample.halifax None)
                       (FeedMessage.header Sample.feed_bare)]).
    split; [reflexivity | simpl; left; reflexivity].
  - assert (Hroute := Hclaim (feature EmptyString EmptyString (Sample.halifax None)
                                      (FeedMessage.header Sample.feed_blank))).
    discriminate Hroute.
    exists (FeatureCollection
              [feature EmptyString EmptyString (Sample.halifax None)
                       (FeedMessage.header Sample.feed_blank)]).
    split; [reflexivity | simpl; left; reflexivity].
Qed.

(* ------------------------------------------------------------------ *)
(** ** Filtering *)

Lemma matches_feature c bus_id route_id position header :
  matches c (feature bus_id route_id position header)
  = String.eqb bus_id c || String.eqb route_id c.
Proof. reflexivity. Qed.

Lemma property_is_true f k c :
  property_is f k c = true -> getpath f ["properties"; k] = Some (PyStr c).
Proof.
  unfold property_is.
  destruct (getpath f ["properties"; k]) as [[s| | | |]|]; try discriminate.
  intros H. apply String.eqb_eq in H. now subst.
Qed.

Lemma property_is_intro f k c :
  getpath f ["properties"; k] = Some (PyStr c) -> property_is f k c = true.
Proof. unfold property_is. intros ->. apply String.eqb_refl. Qed.

Lemma matches_iff c f :
  matches c f = true <->
  getpath f ["properties"; "id"] = Some (PyStr c) \/
  getpath f ["properties"; "route_id"] = Some (PyStr c).
Proof.
  unfold matches. rewrite orb_true_iff. split.
  - intros [H | H]; [left | right]; now apply property_is_true.
  - intros [H | H]; [left | right]; now apply property_is_intro.
Qed.

(** Without a criterion every position-bearing entity contributes. *)
Lemma contributions_unfiltered feed :
  flat_map (contribution feed None) (FeedMessage.entity feed) = eligible_features feed.
Proof.
  unfold eligible_features.
  induction (FeedMessage.entity feed) as [| entity rest IH]; simpl; [reflexivity |].
  rewrite IH, contribution_cases.
  destruct (FeedEntity.vehicle entity) as [vehicle|]; [| reflexivity].
  destruct (VehiclePosition.position vehicle); reflexivity.
Qed.

(** With a criterion the loop keeps, in order, the eligible features that
    match it. *)
Lemma contributions_filtered feed c :
  flat_map (contribution feed (Some c)) (FeedMessage.entity feed)
  = filter (matches c) (eligible_features feed).
Proof.
  unfold eligible_features.
  induction (FeedMessage.entity feed) as [| entity rest IH]; simpl; [reflexivity |].
  rewrite filter_app, <- IH, contribution_cases.
  destruct (FeedEntity.vehicle entity) as [vehicle|]; [| reflexivity].
  destruct (VehiclePosition.position vehicle) as [position|]; [| reflexivity].
  simpl. rewrite matches_feature.
  destruct (_ || _); reflexivity.
Qed.

(** C5: with a criterion [c] the output is, in order, the eligible features
    whose id or route id is exactly [c]: every output feature matches, every
    matching eligible feature is in the output; without a criterion the
    output is all the eligible features. *)
Theorem filter_exact_match_or :
  forall (w : World) (feed : FeedMessage.t) (c : string),
    fetch_feed w = Return feed ->
    exists unfiltered filtered,
      fetch_and_convert_to_geojson w None = Return (FeatureCollection unfiltered) /\
      fetch_and_convert_to_geojson w (Some c) = Return (FeatureCollection filtered) /\
      unfiltered = eligible_features feed /\
      filtered = filter (matches c) unfiltered /\
      (forall f, In f filtered ->
         getpath f ["properties"; "id"] = Some (PyStr c) \/
         getpath f ["properties"; "route_id"] = Some (PyStr c)) /\
      (forall f, In f unfiltered ->
         getpath f ["properties"; "id"] = Some (PyStr c) \/
         getpath f ["properties"; "route_id"] = Some (PyStr c) ->
         In f filtered).
Proof.
  intros w feed c Hfeed.
  exists (eligible_features feed), (filter (matches c) (eligible_features feed)).
  rewrite !(fetch_and_convert_decoded _ _ _ Hfeed), !convert_is_collection.
  rewrite contributions_unfiltered, contributions_filtered.
  repeat split.
  - intros f Hin. apply filter_In in Hin as [_ Hm]. now apply matches_iff.
  - intros f Hin Hm. apply filter_In. split; [assumption | now apply matches_iff].
Qed.

Lemma filter_exact_match_or_witness :
  exists unfiltered filtered,
    fetch_and_convert_to_geojson (Sample.world 200 (Some Sample.feed_mixed)) None
    = Return (FeatureCollection unfiltered) /\
    fetch_and_convert_to_geojson (Sample.world 200 (Some Sample.feed_mixed)) (Some "R1")
    = Return (FeatureCollection filtered) /\
    unfiltered = eligible_features Sample.feed_mixed /\
    filtered = filter (matches "R1") unfiltered /\
    (forall f, In f filtered ->
       getpath f ["properties"; "id"] = Some (PyStr "R1") \/
       getpath f ["properties"; "route_id"] = Some (PyStr "R1")) /\
    (forall f, In f unfiltered ->
       getpath f ["properties"; "id"] = Some (PyStr "R1") \/
       getpath f ["properties"; "route_id"] = Some (PyStr "R1") ->
       In f filtered).
Proof.
  apply (filter_exact_match_or
           (Sample.world 200 (Some Sample.feed_mixed)) Sample.feed_mixed "R1").
  reflexivity.
Defined.

(* ------------------------------------------------------------------ *)
(** ** Entities without a position *)

Lemma contribution_without_position feed target entity :
  has_position entity = false -> contribution feed target entity = [].
Proof.
  unfold has_position. rewrite contribution_cases.
  destruct (FeedEntity.vehicle entity) as [vehicle|]; [| reflexivity].
  destruct (VehiclePosition.position vehicle); [discriminate | reflexivity].
Qed.

Lemma contribution_at_most_one feed target entity :
  (List.length (contribution feed target entity) <= 1)%nat.
Proof.
  rewrite contribution_cases.
  destruct (FeedEntity.vehicle entity) as [vehicle|]; simpl; [| lia].
  destruct (VehiclePosition.position vehicle); simpl; [| lia].
  destruct (selected _ _ _); simpl; lia.
Qed.

Lemma contributions_bounded feed target entities :
  (List.length (flat_map (contribution feed target) entities)
   <= List.length (filter has_position entities))%nat.
Proof.
  induction entities as [| entity rest IH]; simpl; [lia |].
  rewrite List.length_app.
  destruct (has_position entity) eqn:Hpos; simpl.
  - pose proof (contribution_at_most_one feed target entity). lia.
  - rewrite (contribution_without_position _ _ _ Hpos). simpl. lia.
Qed.

(** C6: the function returns (it does not raise on an entity without a
    position), one turn of the loop on such an entity leaves the features
    as they are, and the output has at most as many features as there are
    entities with a position. *)
Theorem positionless_entities_are_skipped :
  forall (w : World) (target_bus_id : option string) (feed : FeedMessage.t),
    fetch_feed w = Return feed ->
    exists features,
      fetch_and_convert_to_geojson w target_bus_id = Return (FeatureCollection features) /\
      (List.length features <= List.length (filter has_position (FeedMessage.entity feed)))%nat /\
      (forall entity so_far,
          has_position entity = false ->
          loop_body feed target_bus_id so_far entity = so_far).
Proof.
  intros w target_bus_id feed Hfeed.
  exists (flat_map (contribution feed target_bus_id) (FeedMessage.entity feed)).
  rewrite (fetch_and_convert_decoded _ _ _ Hfeed), convert_is_collection.
  split; [reflexivity |]. split.
  - apply contributions_bounded.
  - intros entity so_far Hpos.
    rewrite loop_body_appends, (contribution_without_position _ _ _ Hpos).
    apply app_nil_r.
Qed.

Lemma positionless_entities_are_skipped_witness :
  exists features,
    fetch_and_convert_to_geojson (Sample.world 200 (Some Sample.feed_mixed)) None
    = Return (FeatureCollection features) /\
    (List.length features
     <= List.length (filter has_position (FeedMessage.entity Sample.feed_mixed)))%nat /\
    (forall entity so_far,
        has_position entity = false ->
        loop_body Sample.feed_mixed None so_far entity = so_far).
Proof.
  apply (positionless_entities_are_skipped
           (Sample.world 200 (Some Sample.feed_mixed)) None Sample.feed_mixed).
  reflexivity.
Defined.

Example mixed_feed_positions :
  List.length (filter has_position (FeedMessage.entity Sample.feed_mixed)) = 3%nat
  /\ contribution Sample.feed_mixed None Sample.entity_E3 = []
  /\ contribution Sample.feed_mixed None Sample.entity_E4 = [].
Proof. repeat split. Qed.

(* ------------------------------------------------------------------ *)
(** ** Geometry, bearing and timestamp *)

(** C7: the coordinates of an emitted feature are the list of the longitude
    and then the latitude of its entity's position. *)
Theorem coordinates_are_longitude_latitude :
  forall (w : World) (target_bus_id : option string) (feed : FeedMessage.t) (f : pyval),
    fetch_feed w = Return feed ->
    emits w target_bus_id f ->
    exists entity vehicle position,
      In entity (FeedMessage.entity feed) /\
      FeedEntity.vehicle entity = Some vehicle /\
      VehiclePosition.position vehicle = Some position /\
      getpath f ["geometry"; "type"] = Some (PyStr "Point") /\
      getpath f ["geometry"; "coordinates"]
      = Some (PyList [PyFloat (Position.longitude position);
                      PyFloat (Position.latitude position)]).
Proof.
  intros w target_bus_id feed f Hfeed Hemit.
  destruct (emits_inv _ _ _ _ Hfeed Hemit)
    as (entity & vehicle & position & Hin & Hv & Hp & _ & ->).
  exists entity, vehicle, position.
  repeat split; assumption.
Qed.

Lemma coordinates_are_longitude_latitude_witness :
  exists entity vehicle position,
    In entity (FeedMessage.entity Sample.feed_one) /\
    FeedEntity.vehicle entity = Some vehicle /\
    VehiclePosition.position vehicle = Some position /\
    getpath Sample.feature_B42 ["geometry"; "type"] = Some (PyStr "Point") /\
    getpath Sample.feature_B42 ["geometry"; "coordinates"]
    = Some (PyList [PyFloat (Position.longitude position);
                    PyFloat (Position.latitude position)]).
Proof.
  apply (coordinates_are_longitude_latitude
           (Sample.world 200 (Some Sample.feed_one)) None Sample.feed_one).
  - reflexivity.
  - exists (FeatureCollection [Sample.feature_B42]). split.
    + reflexivity.
    + simpl. left. reflexivity.
Defined.

Example coordinates_of_B42 :
  getpath Sample.feature_B42 ["geometry"; "coordinates"]
  = Some (PyList [PyFloat Sample.lon_63_57W; PyFloat Sample.lat_44_65]).
Proof. reflexivity. Qed.

(** C10: every emitted feature has a bearing property (a float) and a
    timestamp property (an int); the bearing is 0.0 when the position of its
    entity has no bearing, the timestamp is 0 when the header has none. *)
Theorem missing_bearing_and_timestamp_default_to_zero :
  forall (w : World) (target_bus_id : option string) (feed : FeedMessage.t) (f : pyval),
    fetch_feed w = Return feed ->
    emits w target_bus_id f ->
    exists entity vehicle position bearing timestamp,
      In entity (FeedMessage.entity feed) /\
      FeedEntity.vehicle entity = Some vehicle /\
      VehiclePosition.position vehicle = Some position /\
      getpath f ["properties"; "bearing"] = Some (PyFloat bearing) /\
      getpath f ["properties"; "timestamp"] = Some (PyInt timestamp) /\
      (Position.bearing position = None -> bearing = S754_zero false) /\
      (forall b, Position.bearing position = Some b -> bearing = b) /\
      (FeedHeader.timestamp (FeedMessage.header feed) = None -> timestamp = 0) /\
      (forall t, FeedHeader.timestamp (FeedMessage.header feed) = Some t -> timestamp = t).
Proof.
  intros w target_bus_id feed f Hfeed Hemit.
  destruct (emits_inv _ _ _ _ Hfeed Hemit)
    as (entity & vehicle & position & Hin & Hv & Hp & _ & ->).
  exists entity, vehicle, position,
    (read float_zero (Position.bearing position)),
    (read 0 (FeedHeader.timestamp (FeedMessage.header feed))).
  repeat split; try assumption.
  - intros ->. reflexivity.
  - intros b ->. reflexivity.
  - intros ->. reflexivity.
  - intros t ->. reflexivity.
Qed.

Lemma missing_bearing_and_timestamp_default_to_zero_witness :
  exists entity vehicle position bearing timestamp,
    In entity (FeedMessage.entity Sample.feed_mixed) /\
    FeedEntity.vehicle entity = Some vehicle /\
    VehiclePosition.position vehicle = Some position /\
    getpath (feature "E2" "N/A" (Sample.halifax None)
                     (FeedMessage.header Sample.feed_mixed))
            ["properties"; "bearing"] = Some (PyFloat bearing) /\
    getpath (feature "E2" "N/A" (Sample.halifax None)
                     (FeedMessage.header Sample.feed_mixed))
            ["properties"; "timestamp"] = Some (PyInt timestamp) /\
    (Position.bearing position = None -> bearing = S754_zero false) /\
    (forall b, Position.bearing position = Some b -> bearing = b) /\
    (FeedHeader.timestamp (FeedMessage.header Sample.feed_mixed) = None -> timestamp = 0) /\
    (forall t, FeedHeader.timestamp (FeedMessage.header Sample.feed_mixed) = Some t ->
               timestamp = t).
Proof.
  apply (missing_bearing_and_timestamp_default_to_zero
           (Sample.world 200 (Some Sample.feed_mixed)) None Sample.feed_mixed).
  - reflexivity.
  - exists (convert_to_geojson Sample.feed_mixed None). split.
    + reflexivity.
    + simpl. right. left. reflexivity.
Defined.

Example bare_entity_defaults :
  fetch_and_convert_to_geojson
    (Sample.world 200 (Some (Sample.feed_of None [Sample.entity_E2]))) None
  = Return (FeatureCollection [
      PyDict [
        ("type", PyStr "Feature");
        ("properties", PyDict [
           ("id", PyStr "E2");
           ("route_id", PyStr "N/A");
           ("bearing", PyFloat (S754_zero false));
           ("timestamp", PyInt 0)
         ]);
        ("geometry", PyDict [
           ("type", PyStr "Point");
           ("coordinates", PyList [PyFloat Sample.lon_63_57W; PyFloat Sample.lat_44_65])
         ])
      ]]).
Proof. reflexivity. Qed.

(* ------------------------------------------------------------------ *)
(** ** The snapshot file *)

Example dumps_empty_collection :
  json_dumps_indent4 Sample.quote_plain Sample.repr_sample (FeatureCollection [])
  = Sample.snapshot_empty.
Proof. reflexivity. Qed.

Example dumps_one_feature :
  json_dumps_indent4 Sample.quote_plain Sample.repr_sample
    (FeatureCollection [Sample.feature_B42])
  = Sample.snapshot_one.
Proof. reflexivity. Qed.

Section Snapshot.

Variable encode_basestring_ascii : string -> string.
Variable float_repr : spec_float -> string.

Lemma write_file_same fs path text :
  write_file fs path text path = Some text.
Proof. unfold write_file. now rewrite String.eqb_refl. Qed.

Lemma write_file_twice fs path text text' p :
  write_file (write_file fs path text') path text p = write_file fs path text p.
Proof. unfold write_file. destruct (String.eqb p path); reflexivity. Qed.

(** C8: a snapshot write that succeeds leaves in the file the serialization
    of the collection and nothing else, whatever the file held before; so
    writing the same collection a second time leaves the same bytes, in the
    snapshot file and in every other file. *)
Theorem snapshot_write_is_idempotent :
  forall (collection : pyval) (path : string) (fs : FileSystem),
    let once := snd (open_w_json_dump encode_basestring_ascii float_repr
                       WriteOk path collection fs) in
    let twice := snd (open_w_json_dump encode_basestring_ascii float_repr
                        WriteOk path collection once) in
    once path = Some (json_dumps_indent4 encode_basestring_ascii float_repr collection) /\
    twice path = once path /\
    (forall p, twice p = once p).
Proof.
  intros collection path fs. simpl. repeat split.
  - apply write_file_same.
  - apply write_file_twice.
  - intros p. apply write_file_twice.
Qed.

(** The endpoint with a write that succeeds: status 200, the collection as
    body, and its serialization in [data/bus_positions.geojson]. *)
Lemma get_geojson_data_written w args fs collection :
  fetch_and_convert_to_geojson w (args_get args "bus" None) = Return collection ->
  exists fs',
    get_geojson_data encode_basestring_ascii float_repr w WriteOk args fs
    = Return ({| body := collection; status := 200;
                 headers := [("Content-Type", "application/json")] |}, fs') /\
    fs' (os_path_join DATA_FOLDER GEOJSON_FILENAME)
    = Some (json_dumps_indent4 encode_basestring_ascii float_repr collection).
Proof.
  intros Hfetch. unfold get_geojson_data. rewrite Hfetch. simpl.
  eexists. split; [reflexivity | apply write_file_same].
Qed.

(** Two requests served from the same collection leave the same snapshot. *)
Lemma get_geojson_data_twice w args fs r1 fs1 r2 fs2 :
  get_geojson_data encode_basestring_ascii float_repr w WriteOk args fs = Return (r1, fs1) ->
  get_geojson_data encode_basestring_ascii float_repr w WriteOk args fs1 = Return (r2, fs2) ->
  fs2 (os_path_join DATA_FOLDER GEOJSON_FILENAME)
  = fs1 (os_path_join DATA_FOLDER GEOJSON_FILENAME).
Proof.
  unfold get_geojson_data.
  destruct (fetch_and_convert_to_geojson w (args_get args "bus" None)); simpl;
    [| discriminate].
  intros [= <- <-] [= <- <-]. apply write_file_twice.
Qed.

End Snapshot.

Example snapshot_of_one_feature :
  match get_geojson_data Sample.quote_plain Sample.repr_sample
          (Sample.world 200 (Some Sample.feed_one)) WriteOk [] Sample.no_files with
  | Return (response, fs) =>
      status response = 200 /\
      fs (os_path_join DATA_FOLDER GEOJSON_FILENAME) = Some Sample.snapshot_one /\
      fs "data/bus_positions.geojson" = Some Sample.snapshot_one
  | Raise _ => False
  end.
Proof. repeat split. Qed.

Example snapshot_when_feed_is_down :
  match get_geojson_data Sample.quote_plain Sample.repr_sample
          (Sample.world_down Timeout) WriteOk [("bus", "B42")] Sample.no_files with
  | Return (response, fs) =>
      status response = 200 /\
      body response = FeatureCollection [] /\
      fs "data/bus_positions.geojson" = Some Sample.snapshot_empty
  | Raise _ => False
  end.
Proof. repeat split. Qed.

(** A collection that cannot be serialized: the endpoint raises
    [TypeError], from [json.dump] or, when the file could not even be
    opened, from [jsonify]. *)
Example endpoint_type_error :
  get_geojson_data Sample.quote_plain Sample.repr_sample
    (Sample.world 200 (Some Sample.feed_one)) (NotSerializable (Some 12%nat)) []
    Sample.no_files = Raise TypeError
  /\
  get_geojson_data Sample.quote_plain Sample.repr_sample
    (Sample.world 200 (Some Sample.feed_one)) (NotSerializable None) []
    Sample.no_files = Raise TypeError.
Proof. split; reflexivity. Qed.

Example os_path_join_cases :
  os_path_join DATA_FOLDER GEOJSON_FILENAME = "data/bus_positions.geojson"
  /\ os_path_join "data/" "x.geojson" = "data/x.geojson"
  /\ os_path_join "data" "/tmp/x.geojson" = "/tmp/x.geojson"
  /\ os_path_join EmptyString "x.geojson" = "x.geojson".
Proof. repeat split. Qed.

(* ------------------------------------------------------------------ *)
(** ** The bus parameter *)

Lemma features_of_collection features :
  features_of (FeatureCollection features) = features.
Proof. reflexivity. Qed.




(** The endpoint under [?bus=] on the mixed feed: it answers with the one
    entity whose identifiers are empty. *)
Example empty_parameter_at_the_endpoint :
  response_of (get_geojson_data Sample.quote_plain Sample.repr_sample
                 (Sample.world 200 (Some Sample.feed_mixed)) WriteOk
                 [("bus", EmptyString)] Sample.no_files)
  = Return {| body := FeatureCollection
                        [feature EmptyString EmptyString (Sample.halifax None)
                                 (FeedMessage.header Sample.feed_mixed)];
              status := 200;
              headers := [("Content-Type", "application/json")] |}.
Proof. reflexivity. Qed.

(** The same feed under [?bus=] and without the parameter: the first keeps
    only the entity whose identifiers are empty, the second all three
    position-bearing entities. *)
Example empty_parameter_against_absent :
  option_map (fun c => List.length (features_of c))
    (match fetch_and_convert_to_geojson (Sample.world 200 (Some Sample.feed_mixed))
             (args_get [("bus", EmptyString)] "bus" None) with
     | Return c => Some c
     | Raise _ => None
     end) = Some 1%nat
  /\
  option_map (fun c => List.length (features_of c))
    (match fetch_and_convert_to_geojson (Sample.world 200 (Some Sample.feed_mixed))
             (args_get [] "bus" None) with
     | Return c => Some c
     | Raise _ => None
     end) = Some 3%nat.
Proof. split; reflexivity. Qed.

(* ------------------------------------------------------------------ *)
(** ** Further properties of fetch_and_convert_to_geojson *)

Lemma raise_for_status_ok response :
  raise_for_status response = Return tt <->
  (400 <=? status_code response) && (status_code response <? 600) = false.
Proof.
  unfold raise_for_status.
  destruct (_ && _); split; intros H; (reflexivity || discriminate).
Qed.

(** What the function returns on a decoded message: all the eligible
    features, or those the criterion matches. *)
Lemma fetch_and_convert_decoded_features w target feed :
  fetch_feed w = Return feed ->
  fetch_and_convert_to_geojson w target
  = Return (FeatureCollection
              match target with
              | None => eligible_features feed
              | Some c => filter (matches c) (eligible_features feed)
              end).
Proof.
  intros Hfeed.
  rewrite (fetch_and_convert_decoded _ _ _ Hfeed), convert_is_collection.
  destruct target as [c|].
  - now rewrite contributions_filtered.
  - now rewrite contributions_unfiltered.
Qed.

(** X1: the function raises [DecodeError] exactly when the request gave a
    response whose status is outside 400..599 and the decoder rejects its
    body with [DecodeError], whatever the criterion. *)
Theorem raises_decode_error_exactly_on_undecodable_body :
  forall (w : World) (target_bus_id : option string),
    fetch_and_convert_to_geojson w target_bus_id = Raise DecodeError <->
    exists response,
      requests_get w FEED_URL = inr response /\
      (400 <=? status_code response) && (status_code response <? 600) = false /\
      ParseFromString w (content response) = None.
Proof.
  intros w target_bus_id. split.
  - intros Hraise.
    destruct (fetch_and_convert_raises _ _ _ Hraise) as [_ (response & Hget & Hok & Hparse)].
    exists response. repeat split; try assumption. now apply raise_for_status_ok.
  - intros (response & Hget & Hok & Hparse).
    apply (undecodable_body_raises _ _ response); try assumption.
    now apply raise_for_status_ok.
Qed.

(** X2: the status of the response matters only through the range 400..599:
    any other status, a 1xx or 3xx as well as a 2xx, has its body decoded
    and converted. *)
Theorem any_status_outside_400_599_is_decoded :
  forall (w : World) (target_bus_id : option string)
         (response : Response) (feed : FeedMessage.t),
    requests_get w FEED_URL = inr response ->
    (status_code response < 400 \/ 600 <= status_code response) ->
    ParseFromString w (content response) = Some feed ->
    fetch_and_convert_to_geojson w target_bus_id
    = Return (FeatureCollection
                match target_bus_id with
                | None => eligible_features feed
                | Some c => filter (matches c) (eligible_features feed)
                end).
Proof.
  intros w target_bus_id response feed Hget Hstatus Hparse.
  apply fetch_and_convert_decoded_features.
  unfold fetch_feed. rewrite Hget. simpl.
  assert (Hok : raise_for_status response = Return tt).
  { apply raise_for_status_ok. apply andb_false_iff.
    destruct Hstatus as [Hlow | Hhigh];
      [left; now apply Z.leb_gt | right; now apply Z.ltb_ge]. }
  rewrite Hok. simpl. now rewrite Hparse.
Qed.

Lemma any_status_outside_400_599_is_decoded_witness :
  fetch_and_convert_to_geojson (Sample.world 304 (Some Sample.feed_one)) (Some "B42")
  = Return (FeatureCollection
              (filter (matches "B42") (eligible_features Sample.feed_one))).
Proof.
  apply (any_status_outside_400_599_is_decoded
           (Sample.world 304 (Some Sample.feed_one)) (Some "B42")
           {| status_code := 304; content := "payload" |} Sample.feed_one).
  - reflexivity.
  - left. simpl. lia.
  - reflexivity.
Defined.

(** X3: the loop treats each entity on its own: the features of a message
    whose entities are one list followed by another are the features of the
    first list followed by those of the second, under the same header and
    criterion. *)
Theorem features_of_concatenated_entities :
  forall (header : FeedHeader.t) (first second : list FeedEntity.t)
         (target_bus_id : option string),
    features_of (convert_to_geojson
                   {| FeedMessage.header := header;
                      FeedMessage.entity := (first ++ second)%list |}
                   target_bus_id)
    = (features_of (convert_to_geojson
                      {| FeedMessage.header := header; FeedMessage.entity := first |}
                      target_bus_id)
       ++ features_of (convert_to_geojson
                         {| FeedMessage.header := header; FeedMessage.entity := second |}
                         target_bus_id))%list.
Proof.
  intros header first second target_bus_id.
  rewrite !features_of_convert. simpl.
  rewrite flat_map_app. reflexivity.
Qed.

(** X4: the features of one message all carry the same timestamp, that of
    the header, under whatever criteria they were asked for. *)
Theorem features_share_the_timestamp :
  forall (w : World) (target1 target2 : option string) (feed : FeedMessage.t)
         (f1 f2 : pyval),
    fetch_feed w = Return feed ->
    emits w target1 f1 ->
    emits w target2 f2 ->
    getpath f1 ["properties"; "timestamp"] = getpath f2 ["properties"; "timestamp"] /\
    getpath f1 ["properties"; "timestamp"]
    = Some (PyInt match FeedHeader.timestamp (FeedMessage.header feed) with
                  | Some t => t
                  | None => 0
                  end).
Proof.
  intros w target1 target2 feed f1 f2 Hfeed H1 H2.
  destruct (emits_inv _ _ _ _ Hfeed H1) as (e1 & v1 & p1 & _ & _ & _ & _ & ->).
  destruct (emits_inv _ _ _ _ Hfeed H2) as (e2 & v2 & p2 & _ & _ & _ & _ & ->).
  split; reflexivity.
Qed.

Lemma features_share_the_timestamp_witness :
  getpath (feature "B42" "R1" (Sample.halifax (Some Sample.deg_90))
                   (FeedMessage.header Sample.feed_mixed))
          ["properties"; "timestamp"]
  = getpath (feature "E2" "N/A" (Sample.halifax None)
                     (FeedMessage.header Sample.feed_mixed))
            ["properties"; "timestamp"] /\
  getpath (feature "B42" "R1" (Sample.halifax (Some Sample.deg_90))
                   (FeedMessage.header Sample.feed_mixed))
          ["properties"; "timestamp"]
  = Some (PyInt match FeedHeader.timestamp (FeedMessage.header Sample.feed_mixed) with
                | Some t => t
                | None => 0
                end).
Proof.
  apply (features_share_the_timestamp
           (Sample.world 200 (Some Sample.feed_mixed)) (Some "R1") None
           Sample.feed_mixed).
  - reflexivity.
  - exists (convert_to_geojson Sample.feed_mixed (Some "R1")).
    split; [reflexivity | simpl; left; reflexivity].
  - exists (convert_to_geojson Sample.feed_mixed None).
    split; [reflexivity | simpl; right; left; reflexivity].
Defined.

(** X5: whatever the function returns is a FeatureCollection dict whose
    features are each a Feature dict with the four properties id, route_id,
    bearing and timestamp, in that order, and a Point geometry of two
    coordinates. *)
Theorem result_is_a_feature_collection_of_points :
  forall (w : World) (target_bus_id : option string) (collection : pyval),
    fetch_and_convert_to_geojson w target_bus_id = Return collection ->
    exists features,
      collection
      = PyDict [("type", PyStr "FeatureCollection"); ("features", PyList features)] /\
      forall f, In f features ->
        exists bus_id route_id bearing timestamp longitude latitude,
          f = PyDict [
                ("type", PyStr "Feature");
                ("properties", PyDict [
                   ("id", PyStr bus_id);
                   ("route_id", PyStr route_id);
                   ("bearing", PyFloat bearing);
                   ("timestamp", PyInt timestamp)
                 ]);
                ("geometry", PyDict [
                   ("type", PyStr "Point");
                   ("coordinates", PyList [PyFloat longitude; PyFloat latitude])
                 ])
              ].
Proof.
  intros w target_bus_id collection.
  unfold fetch_and_convert_to_geojson.
  destruct (fetch_feed w) as [feed | e].
  - intros [= <-]. rewrite convert_is_collection.
    eexists. split; [reflexivity |].
    intros f Hin. apply in_flat_map in Hin as [entity [_ Hf]].
    rewrite contribution_cases in Hf.
    destruct (FeedEntity.vehicle entity) as [vehicle|]; [| contradiction].
    destruct (VehiclePosition.position vehicle) as [position|]; [| contradiction].
    destruct (selected _ _ _); [| contradiction].
    destruct Hf as [<- | []].
    unfold feature. do 6 eexists. reflexivity.
  - destruct (isinstance_RequestException e); [| discriminate].
    intros [= <-]. exists []. split; [reflexivity |]. intros f [].
Qed.

Lemma result_is_a_feature_collection_of_points_witness :
  exists features,
    convert_to_geojson Sample.feed_mixed None
    = PyDict [("type", PyStr "FeatureCollection"); ("features", PyList features)] /\
    forall f, In f features ->
      exists bus_id route_id bearing timestamp longitude latitude,
        f = PyDict [
              ("type", PyStr "Feature");
              ("properties", PyDict [
                 ("id", PyStr bus_id);
                 ("route_id", PyStr route_id);
                 ("bearing", PyFloat bearing);
                 ("timestamp", PyInt timestamp)
               ]);
              ("geometry", PyDict [
                 ("type", PyStr "Point");
                 ("coordinates", PyList [PyFloat longitude; PyFloat latitude])
               ])
            ].
Proof.
  apply (result_is_a_feature_collection_of_points
           (Sample.world 200 (Some Sample.feed_mixed)) None).
  reflexivity.
Defined.

(** X6: the criterion N/A selects every position-bearing entity that has no
    route identifier, since the sentinel is compared like a route
    identifier. *)
Theorem criterion_NA_selects_entities_without_route :
  forall (w : World) (feed : FeedMessage.t) (entity : FeedEntity.t)
         (vehicle : VehiclePosition.t) (position : Position.t),
    fetch_feed w = Return feed ->
    In entity (FeedMessage.entity feed) ->
    FeedEntity.vehicle entity = Some vehicle ->
    VehiclePosition.position vehicle = Some position ->
    (forall trip, VehiclePosition.trip vehicle = Some trip ->
                  TripDescriptor.route_id trip = None) ->
    exists f,
      emits w (Some "N/A") f /\
      getpath f ["properties"; "route_id"] = Some (PyStr "N/A") /\
      getpath f ["properties"; "id"]
      = Some (PyStr match VehiclePosition.vehicle vehicle with
                    | Some descriptor =>
                        match VehicleDescriptor.id descriptor with
                        | Some i => i
                        | None => FeedEntity.id entity
                        end
                    | None => FeedEntity.id entity
                    end) /\
      getpath f ["geometry"; "coordinates"]
      = Some (PyList [PyFloat (Position.longitude position);
                      PyFloat (Position.latitude position)]).
Proof.
  intros w feed entity vehicle position Hfeed Hin Hv Hp Hroute.
  assert (Hna : route_id_of vehicle = "N/A").
  { rewrite route_id_of_cases.
    destruct (VehiclePosition.trip vehicle) as [trip|]; [| reflexivity].
    now rewrite (Hroute trip eq_refl). }
  exists (feature (bus_id_of entity vehicle) (route_id_of vehicle)
                  position (FeedMessage.header feed)).
  split.
  - apply (emits_intro _ _ _ _ _ _ Hfeed Hin Hv Hp).
    simpl. rewrite Hna. apply orb_true_r.
  - rewrite feature_route_id, feature_id, Hna, bus_id_of_cases.
    repeat split.
Qed.

Lemma criterion_NA_selects_entities_without_route_witness :
  exists f,
    emits (Sample.world 200 (Some Sample.feed_mixed)) (Some "N/A") f /\
    getpath f ["properties"; "route_id"] = Some (PyStr "N/A") /\
    getpath f ["properties"; "id"]
    = Some (PyStr match VehiclePosition.vehicle Sample.vehicle_bare with
                  | Some descriptor =>
                      match VehicleDescriptor.id descriptor with
                      | Some i => i
                      | None => FeedEntity.id Sample.entity_E2
                      end
                  | None => FeedEntity.id Sample.entity_E2
                  end) /\
    getpath f ["geometry"; "coordinates"]
    = Some (PyList [PyFloat (Position.longitude (Sample.halifax None));
                    PyFloat (Position.latitude (Sample.halifax None))]).
Proof.
  apply (criterion_NA_selects_entities_without_route
           (Sample.world 200 (Some Sample.feed_mixed)) Sample.feed_mixed
           Sample.entity_E2 Sample.vehicle_bare (Sample.halifax None)).
  - reflexivity.
  - simpl. right. left. reflexivity.
  - reflexivity.
  - reflexivity.
  - simpl. intros trip Htrip. discriminate Htrip.
Defined.

(** X7: a position-bearing entity whose vehicle identifier is not set is
    selected by its entity identifier as criterion. *)
Theorem entity_id_selects_vehicle_without_id :
  forall (w : World) (feed : FeedMessage.t) (entity : FeedEntity.t)
         (vehicle : VehiclePosition.t) (position : Position.t),
    fetch_feed w = Return feed ->
    In entity (FeedMessage.entity feed) ->
    FeedEntity.vehicle entity = Some vehicle ->
    VehiclePosition.position vehicle = Some position ->
    (forall descriptor, VehiclePosition.vehicle vehicle = Some descriptor ->
                        VehicleDescriptor.id descriptor = None) ->
    exists f,
      emits w (Some (FeedEntity.id entity)) f /\
      getpath f ["properties"; "id"] = Some (PyStr (FeedEntity.id entity)) /\
      getpath f ["geometry"; "coordinates"]
      = Some (PyList [PyFloat (Position.longitude position);
                      PyFloat (Position.latitude position)]).
Proof.
  intros w feed entity vehicle position Hfeed Hin Hv Hp Hid.
  assert (Hbus : bus_id_of entity vehicle = FeedEntity.id entity).
  { rewrite bus_id_of_cases.
    destruct (VehiclePosition.vehicle vehicle) as [descriptor|]; [| reflexivity].
    now rewrite (Hid descriptor eq_refl). }
  exists (feature (bus_id_of entity vehicle) (route_id_of vehicle)
                  position (FeedMessage.header feed)).
  split.
  - apply (emits_intro _ _ _ _ _ _ Hfeed Hin Hv Hp).
    simpl. rewrite Hbus, String.eqb_refl. reflexivity.
  - rewrite feature_id, Hbus. split; reflexivity.
Qed.

Lemma entity_id_selects_vehicle_without_id_witness :
  exists f,
    emits (Sample.world 200 (Some Sample.feed_mixed))
          (Some (FeedEntity.id Sample.entity_E2)) f /\
    getpath f ["properties"; "id"] = Some (PyStr (FeedEntity.id Sample.entity_E2)) /\
    getpath f ["geometry"; "coordinates"]
    = Some (PyList [PyFloat (Position.longitude (Sample.halifax None));
                    PyFloat (Position.latitude (Sample.halifax None))]).
Proof.
  apply (entity_id_selects_vehicle_without_id
           (Sample.world 200 (Some Sample.feed_mixed)) Sample.feed_mixed
           Sample.entity_E2 Sample.vehicle_bare (Sample.halifax None)).
  - reflexivity.
  - simpl. right. left. reflexivity.
  - reflexivity.
  - reflexivity.
  - simpl. intros descriptor Hd. discriminate Hd.
Defined.

(** X8: once the vehicle identifier is set, the entity identifier is no
    handle any more: with the entity identifier as criterion the loop passes
    over the entity, unless the vehicle or route identifier happens to equal
    it. *)
Theorem entity_id_does_not_select_identified_vehicle :
  forall (feed : FeedMessage.t) (entity : FeedEntity.t) (vehicle : VehiclePosition.t)
         (descriptor : VehicleDescriptor.t) (i : string) (so_far : list pyval),
    FeedEntity.vehicle entity = Some vehicle ->
    VehiclePosition.vehicle vehicle = Some descriptor ->
    VehicleDescriptor.id descriptor = Some i ->
    i <> FeedEntity.id entity ->
    route_id_of vehicle <> FeedEntity.id entity ->
    loop_body feed (Some (FeedEntity.id entity)) so_far entity = so_far.
Proof.
  intros feed entity vehicle descriptor i so_far Hv Hd Hi Hne Hroute.
  rewrite loop_body_appends, contribution_cases, Hv.
  destruct (VehiclePosition.position vehicle); [| apply app_nil_r].
  assert (Hsel : selected (Some (FeedEntity.id entity))
                          (bus_id_of entity vehicle) (route_id_of vehicle) = false).
  { simpl. rewrite bus_id_of_cases, Hd, Hi.
    apply orb_false_iff. split; now apply String.eqb_neq. }
  rewrite Hsel. apply app_nil_r.
Qed.

Lemma entity_id_does_not_select_identified_vehicle_witness :
  loop_body Sample.feed_one (Some (FeedEntity.id Sample.entity_E1)) [] Sample.entity_E1
  = [].
Proof.
  apply (entity_id_does_not_select_identified_vehicle
           Sample.feed_one Sample.entity_E1 Sample.vehicle_B42
           {| VehicleDescriptor.id := Some "B42" |} "B42" []).
  - reflexivity.
  - reflexivity.
  - reflexivity.
  - simpl. intros H. discriminate H.
  - simpl. intros H. discriminate H.
Defined.

Lemma eligible_features_nil feed :
  eligible_features feed = [] <->
  (forall entity, In entity (FeedMessage.entity feed) -> has_position entity = false).
Proof.
  unfold eligible_features, has_position.
  induction (FeedMessage.entity feed) as [| entity rest IH]; simpl.
  - split; [intros _ entity [] | reflexivity].
  - split.
    + intros Hnil. apply app_eq_nil in Hnil as [Hhead Hrest].
      intros e [Heq | Hin].
      * subst e.
        destruct (FeedEntity.vehicle entity) as [vehicle|]; [| reflexivity].
        destruct (VehiclePosition.position vehicle); [discriminate | reflexivity].
      * now apply IH.
    + intros Hall.
      assert (Hrest : flat_map _ rest = []) by (apply IH; intros e He; apply Hall; now right).
      rewrite Hrest, app_nil_r.
      specialize (Hall entity (or_introl eq_refl)).
      destruct (FeedEntity.vehicle entity) as [vehicle|]; [| reflexivity].
      destruct (VehiclePosition.position vehicle); [discriminate | reflexivity].
Qed.

(** X9: a decoded message in which no entity has a position gives the empty
    FeatureCollection under every criterion, the very value returned when
    the fetch fails; and without a criterion the result is empty only then. *)
Theorem feed_without_positions_gives_empty_collection :
  forall (w : World) (feed : FeedMessage.t),
    fetch_feed w = Return feed ->
    ((forall entity, In entity (FeedMessage.entity feed) -> has_position entity = false) ->
     forall target_bus_id,
       fetch_and_convert_to_geojson w target_bus_id
       = Return (PyDict [("type", PyStr "FeatureCollection"); ("features", PyList [])])) /\
    (fetch_and_convert_to_geojson w None
     = Return (PyDict [("type", PyStr "FeatureCollection"); ("features", PyList [])]) ->
     forall entity, In entity (FeedMessage.entity feed) -> has_position entity = false).
Proof.
  intros w feed Hfeed. split.
  - intros Hall target_bus_id.
    rewrite (fetch_and_convert_decoded_features _ _ _ Hfeed).
    apply eligible_features_nil in Hall. rewrite Hall.
    destruct target_bus_id; reflexivity.
  - rewrite (fetch_and_convert_decoded_features _ _ _ Hfeed).
    intros [= Hnil]. now apply eligible_features_nil.
Qed.

Lemma feed_without_positions_gives_empty_collection_witness :
  ((forall entity,
       In entity (FeedMessage.entity
                    (Sample.feed_of None [Sample.entity_E3; Sample.entity_E4])) ->
       has_position entity = false) ->
   forall target_bus_id,
     fetch_and_convert_to_geojson
       (Sample.world 200 (Some (Sample.feed_of None [Sample.entity_E3; Sample.entity_E4])))
       target_bus_id
     = Return (PyDict [("type", PyStr "FeatureCollection"); ("features", PyList [])])) /\
  (fetch_and_convert_to_geojson
     (Sample.world 200 (Some (Sample.feed_of None [Sample.entity_E3; Sample.entity_E4])))
     None
   = Return (PyDict [("type", PyStr "FeatureCollection"); ("features", PyList [])]) ->
   forall entity,
     In entity (FeedMessage.entity
                  (Sample.feed_of None [Sample.entity_E3; Sample.entity_E4])) ->
     has_position entity = false).
Proof.
  apply (feed_without_positions_gives_empty_collection
           (Sample.world 200 (Some (Sample.feed_of None [Sample.entity_E3; Sample.entity_E4])))
           (Sample.feed_of None [Sample.entity_E3; Sample.entity_E4])).
  reflexivity.
Defined.

(* ------------------------------------------------------------------ *)
(** ** Further properties of get_geojson_data *)

Lemma get_geojson_data_returns enc frepr w io args fs response fs' :
  get_geojson_data enc frepr w io args fs = Return (response, fs') ->
  fetch_and_convert_to_geojson w (args_get args "bus" None) = Return (body response) /\
  response = {| body := body response; status := 200;
                headers := [("Content-Type", "application/json")] |} /\
  jsonify io (body response) = Return (body response).
Proof.
  unfold get_geojson_data.
  destruct (fetch_and_convert_to_geojson w (args_get args "bus" None)); simpl;
    [| discriminate].
  destruct io as [| | written | [written |]]; simpl; intros [= <- _];
    repeat split.
Qed.

(** X10: whenever the endpoint returns, its response has status 200, the
    JSON content type and, as body, the collection the fetch returned for
    the request's bus parameter; and the same request gets that same
    response when the snapshot write succeeds, when the file cannot be
    opened and when a write fails part way, whatever the files held. *)
Theorem response_does_not_depend_on_the_snapshot_write :
  forall (encode_basestring_ascii : string -> string)
         (float_repr : spec_float -> string)
         (w : World) (io : io_outcome) (args : list (string * string))
         (fs fs' : FileSystem) (response : HttpResponse),
    get_geojson_data encode_basestring_ascii float_repr w io args fs
    = Return (response, fs') ->
    fetch_and_convert_to_geojson w (args_get args "bus" None) = Return (body response) /\
    status response = 200 /\
    headers response = [("Content-Type", "application/json")] /\
    (forall files : FileSystem,
        response_of (get_geojson_data encode_basestring_ascii float_repr
                       w WriteOk args files) = Return response) /\
    (forall files : FileSystem,
        response_of (get_geojson_data encode_basestring_ascii float_repr
                       w OpenFails args files) = Return response) /\
    (forall (files : FileSystem) (written : nat),
        response_of (get_geojson_data encode_basestring_ascii float_repr
                       w (WriteFails written) args files) = Return response).
Proof.
  intros enc frepr w io args fs fs' response Hget.
  destruct (get_geojson_data_returns _ _ _ _ _ _ _ _ Hget) as (Hfetch & Hresp & _).
  split; [exact Hfetch |].
  split; [now rewrite Hresp |]. split; [now rewrite Hresp |].
  unfold get_geojson_data. rewrite Hfetch. simpl.
  repeat split; intros; simpl; f_equal; symmetry; exact Hresp.
Qed.

Lemma response_does_not_depend_on_the_snapshot_write_witness :
  fetch_and_convert_to_geojson (Sample.world 200 (Some Sample.feed_one))
    (args_get [("bus", "R1")] "bus" None)
  = Return (body {| body := FeatureCollection [Sample.feature_B42]; status := 200;
                    headers := [("Content-Type", "application/json")] |}) /\
  status {| body := FeatureCollection [Sample.feature_B42]; status := 200;
            headers := [("Content-Type", "application/json")] |} = 200 /\
  headers {| body := FeatureCollection [Sample.feature_B42]; status := 200;
             headers := [("Content-Type", "application/json")] |}
  = [("Content-Type", "application/json")] /\
  (forall files : FileSystem,
      response_of (get_geojson_data Sample.quote_plain Sample.repr_sample
                     (Sample.world 200 (Some Sample.feed_one)) WriteOk
                     [("bus", "R1")] files)
      = Return {| body := FeatureCollection [Sample.feature_B42]; status := 200;
                  headers := [("Content-Type", "application/json")] |}) /\
  (forall files : FileSystem,
      response_of (get_geojson_data Sample.quote_plain Sample.repr_sample
                     (Sample.world 200 (Some Sample.feed_one)) OpenFails
                     [("bus", "R1")] files)
      = Return {| body := FeatureCollection [Sample.feature_B42]; status := 200;
                  headers := [("Content-Type", "application/json")] |}) /\
  (forall (files : FileSystem) (written : nat),
      response_of (get_geojson_data Sample.quote_plain Sample.repr_sample
                     (Sample.world 200 (Some Sample.feed_one)) (WriteFails written)
                     [("bus", "R1")] files)
      = Return {| body := FeatureCollection [Sample.feature_B42]; status := 200;
                  headers := [("Content-Type", "application/json")] |}).
Proof.
  apply (response_does_not_depend_on_the_snapshot_write
           Sample.quote_plain Sample.repr_sample
           (Sample.world 200 (Some Sample.feed_one)) (WriteFails 10)
           [("bus", "R1")] Sample.no_files
           (write_file Sample.no_files "data/bus_positions.geojson"
              (substring 0 10 Sample.snapshot_one))).
  reflexivity.
Defined.

(** X11: when the fetch fails in transport the endpoint still answers 200,
    with the empty collection, and a successful snapshot write replaces
    whatever the snapshot file held by the serialization of the empty
    collection. *)
Theorem failed_fetch_overwrites_the_snapshot :
  forall (encode_basestring_ascii : string -> string)
         (float_repr : spec_float -> string)
         (w : World) (args : list (string * string)) (fs : FileSystem),
    transport_failure w = true ->
    exists fs',
      get_geojson_data encode_basestring_ascii float_repr w WriteOk args fs
      = Return ({| body := PyDict [("type", PyStr "FeatureCollection");
                                   ("features", PyList [])];
                   status := 200;
                   headers := [("Content-Type", "application/json")] |}, fs') /\
      fs' "data/bus_positions.geojson"
      = Some (json_dumps_indent4 encode_basestring_ascii float_repr
                (PyDict [("type", PyStr "FeatureCollection"); ("features", PyList [])])).
Proof.
  intros enc frepr w args fs Hfail.
  assert (Hfetch : fetch_and_convert_to_geojson w (args_get args "bus" None)
                   = Return (FeatureCollection [])).
  { unfold transport_failure in Hfail.
    unfold fetch_and_convert_to_geojson, fetch_feed.
    destruct (requests_get w FEED_URL) as [err | response]; simpl; [reflexivity |].
    unfold raise_for_status. rewrite Hfail. reflexivity. }
  unfold get_geojson_data. rewrite Hfetch. simpl.
  eexists. split; [reflexivity |]. reflexivity.
Qed.

Lemma failed_fetch_overwrites_the_snapshot_witness :
  exists fs',
    get_geojson_data Sample.quote_plain Sample.repr_sample
      (Sample.world_down Timeout) WriteOk [("bus", "B42")]
      (write_file Sample.no_files "data/bus_positions.geojson" Sample.snapshot_one)
    = Return ({| body := PyDict [("type", PyStr "FeatureCollection");
                                 ("features", PyList [])];
                 status := 200;
                 headers := [("Content-Type", "application/json")] |}, fs') /\
    fs' "data/bus_positions.geojson"
    = Some (json_dumps_indent4 Sample.quote_plain Sample.repr_sample
              (PyDict [("type", PyStr "FeatureCollection"); ("features", PyList [])])).
Proof.
  apply (failed_fetch_overwrites_the_snapshot
           Sample.quote_plain Sample.repr_sample (Sample.world_down Timeout)).
  reflexivity.
Defined.

(** X12: the endpoint touches no file but [data/bus_positions.geojson],
    whatever the fetch gave and however the write went. *)
Theorem only_the_snapshot_file_is_written :
  forall (encode_basestring_ascii : string -> string)
         (float_repr : spec_float -> string)
         (w : World) (io : io_outcome) (args : list (string * string))
         (fs fs' : FileSystem) (response : HttpResponse) (path : string),
    get_geojson_data encode_basestring_ascii float_repr w io args fs
    = Return (response, fs') ->
    path <> "data/bus_positions.geojson" ->
    fs' path = fs path.
Proof.
  intros enc frepr w io args fs fs' response path Hget Hpath.
  unfold get_geojson_data in Hget.
  destruct (fetch_and_convert_to_geojson w (args_get args "bus" None));
    simpl in Hget; [| discriminate].
  apply String.eqb_neq in Hpath.
  change (os_path_join DATA_FOLDER GEOJSON_FILENAME)
    with "data/bus_positions.geojson" in Hget.
  destruct io as [| | written | [written |]];
    cbn [open_w_json_dump bind jsonify isinstance_IOError] in Hget;
    try discriminate Hget;
    injection Hget as _ <-;
    try reflexivity; unfold write_file; now rewrite Hpath.
Qed.

Lemma only_the_snapshot_file_is_written_witness :
  write_file (write_file Sample.no_files "data/notes.txt" "keep")
             "data/bus_positions.geojson" Sample.snapshot_one
             "data/notes.txt"
  = write_file Sample.no_files "data/notes.txt" "keep" "data/notes.txt".
Proof.
  apply (only_the_snapshot_file_is_written
           Sample.quote_plain Sample.repr_sample
           (Sample.world 200 (Some Sample.feed_one)) WriteOk []
           (write_file Sample.no_files "data/notes.txt" "keep")
           (write_file (write_file Sample.no_files "data/notes.txt" "keep")
                       "data/bus_positions.geojson" Sample.snapshot_one)
           {| body := FeatureCollection [Sample.feature_B42]; status := 200;
              headers := [("Content-Type", "application/json")] |}
           "data/notes.txt").
  - reflexivity.
  - intros H. discriminate H.
Defined.

(** X13: the endpoint raises [DecodeError] exactly when the server answered
    with a status outside 400..599 and a body the decoder rejects with
    [DecodeError], whatever the bus parameter and however the snapshot step
    would have gone. *)
Theorem endpoint_raises_decode_error_exactly_on_undecodable_body :
  forall (encode_basestring_ascii : string -> string)
         (float_repr : spec_float -> string)
         (w : World) (io : io_outcome) (args : list (string * string))
         (fs : FileSystem),
    get_geojson_data encode_basestring_ascii float_repr w io args fs = Raise DecodeError <->
    exists response,
      requests_get w FEED_URL = inr response /\
      (400 <=? status_code response) && (status_code response <? 600) = false /\
      ParseFromString w (content response) = None.
Proof.
  intros enc frepr w io args fs.
  assert (Hsame :
             get_geojson_data enc frepr w io args fs = Raise DecodeError <->
             fetch_and_convert_to_geojson w (args_get args "bus" None) = Raise DecodeError).
  { unfold get_geojson_data.
    destruct (fetch_and_convert_to_geojson w (args_get args "bus" None)); simpl.
    - destruct io as [| | written | [written |]]; simpl; split; discriminate.
    - split; intros [= ->]; reflexivity. }
  split.
  - intros Hraise. apply Hsame in Hraise.
    destruct (fetch_and_convert_raises _ _ _ Hraise) as [_ (response & Hget & Hok & Hparse)].
    exists response. repeat split; try assumption. now apply raise_for_status_ok.
  - intros (response & Hget & Hok & Hparse). apply Hsame.
    apply (undecodable_body_raises _ _ response); try assumption.
    now apply raise_for_status_ok.
Qed.

(* ------------------------------------------------------------------ *)
(** ** The page *)

Example page_for_bus_42 :
  index_data_url_and_title [("bus", "42")]
  = ("/bus_data.geojson?bus=42", "Live Tracking: Bus/Route 42").
Proof. reflexivity. Qed.

(** X14: the page polls the filtered URL, and names the bus in its title,
    exactly when the bus parameter is present and non-empty; with the
    parameter absent or empty it polls the bare URL under the title for all
    buses. *)
Theorem page_filters_only_on_a_non_empty_parameter :
  forall args : list (string * string),
    (forall bus,
        args_get args "bus" None = Some bus -> bus <> EmptyString ->
        index_data_url_and_title args
        = ("/bus_data.geojson?bus=" ++ bus, "Live Tracking: Bus/Route " ++ bus)) /\
    (args_get args "bus" None = None \/ args_get args "bus" None = Some EmptyString <->
     index_data_url_and_title args
     = ("/bus_data.geojson", "Live Tracking: All Active Buses")).
Proof.
  intros args. unfold index_data_url_and_title.
  destruct (args_get args "bus" None) as [[| c bus] |]; simpl.
  - split.
    + intros bus [= <-] Hne. now contradiction Hne.
    + split; [intros _; reflexivity | intros _; now right].
  - split.
    + intros bus' [= <-] _. reflexivity.
    + split.
      * intros [H | H]; discriminate H.
      * intros H. discriminate H.
  - split.
    + intros bus H. discriminate H.
    + split; [intros _; reflexivity | intros _; now left].
Qed.
